(** * Verification of [tools.py]: plotting-axis helpers

    [tools.py] holds three helpers over a matplotlib axes object:
    [pause_commandline], [set_xaxis_dateformat] and
    [set_yaxis_log_minor_labels] (with [set_dense_minor_yticks] and the
    nested class [MyLogFormatter]).

    Numbers.  Python floats are modelled by exact rationals [Q]: every
    float is a dyadic rational, and the arithmetic of the source is taken
    at its exact value (rounding of the last bit is not modelled).
    Integers ([Timedelta.days], the default [maxticks]) embed in [Q] by
    [inject_Z].  [np.floor(np.log10 x)] and [np.ceil(np.log10 x)] are the
    exact integer logarithms. *)

From Stdlib Require Import ZArith QArith Qpower Qround Lia Lqa.
From Stdlib Require Import String Ascii.
From stdpp Require Import base option list gmap strings sorting.

Local Open Scope Z_scope.

(** ** Decades and integer logarithms *)

Module Decade.

(** Comparisons of rationals are comparisons of cross products in [Z]. *)
#[global] Instance Qle_decision (x y : Q) : Decision (x <= y)%Q.
Proof. unfold Qle. apply _. Defined.
#[global] Instance Qlt_decision (x y : Q) : Decision (x < y)%Q.
Proof. unfold Qlt. apply _. Defined.
#[global] Instance Qeq_decision (x y : Q) : Decision (x == y)%Q.
Proof. unfold Qeq. apply _. Defined.

(** [10 ** k] for an integral float [k] (as produced by [np.floor],
    [np.ceil] and [np.arange]). *)
Definition pow10 (k : Z) : Q := (10 ^ k)%Q.

(** Downward search for the decade of [x]: the first [k], going down from
    the start, with [10^k <= x]. *)
Fixpoint decade_below (fuel : nat) (k : Z) (x : Q) : Z :=
  match fuel with
  | O => k
  | S fuel' => if decide (pow10 k <= x)%Q then k else decade_below fuel' (k - 1) x
  end.

(** [np.floor(np.log10(x))] for [x > 0].  The search window is
    [-(log2 den + 1) <= k <= log2 num], which contains the decade of every
    positive rational.  For [x <= 0] numpy yields [-inf] or [nan]; the
    model returns [0] there and no theorem below relies on it. *)
Definition floor_log10 (x : Q) : Z :=
  match Qnum x with
  | Zpos n =>
      let hi := Z.log2 (Zpos n) in
      let lo := - (Z.log2 (Zpos (Qden x)) + 1) in
      decade_below (Z.to_nat (hi - lo)) hi x
  | _ => 0
  end.

(** [np.ceil(np.log10(x))] for [x > 0]: the decade itself on an exact
    power of ten, the next one otherwise. *)
Definition ceil_log10 (x : Q) : Z :=
  let k := floor_log10 x in
  if decide (pow10 k == x)%Q then k else k + 1.

(** Round half to even, the rule of [np.rint] and of Python's float
    formatting. *)
Definition round_half_even (q : Q) : Z :=
  let f := Qfloor q in
  match (q - inject_Z f ?= 1 # 2)%Q with
  | Lt => f
  | Gt => f + 1
  | Eq => if Z.even f then f else f + 1
  end.

(** [np.around(v, 1)] is [np.rint(v * 10) / 10]. *)
Definition around1 (v : Q) : Q :=
  (inject_Z (round_half_even (v * 10)) / 10)%Q.

End Decade.

(** ** Python's [format(v, '.{p}g')] *)

Module PyFormat.
Import Decade.

Local Open Scope string_scope.
Local Open Scope Z_scope.

Definition digit_char (d : Z) : ascii := ascii_of_nat (48 + Z.to_nat d).

(** Decimal digits of a natural number, most significant first. *)
Fixpoint digits_acc (fuel : nat) (n : Z) (acc : string) : string :=
  match fuel with
  | O => acc
  | S fuel' =>
      let acc' := String (digit_char (n mod 10)) acc in
      if n / 10 =? 0 then acc' else digits_acc fuel' (n / 10) acc'
  end.

Definition str_of_Z (n : Z) : string :=
  digits_acc (S (Z.to_nat (Z.log2 n))) n "".

(** The [n] low digits of [d], zero padded. *)
Fixpoint pad_digits (n : nat) (d : Z) (acc : string) : string :=
  match n with
  | O => acc
  | S n' => pad_digits n' (d / 10) (String (digit_char (d mod 10)) acc)
  end.

(** Removal of insignificant trailing zeros: [d] carries [n] fractional
    digits; the result carries as few as possible for the same value. *)
Fixpoint strip_zeros (n : nat) (d : Z) : nat * Z :=
  match n with
  | O => (O, d)
  | S n' => if d mod 10 =? 0 then strip_zeros n' (d / 10) else (n, d)
  end.

(** [d / 10^n] written with its [n] fractional digits; no decimal point
    when [n = 0]. *)
Definition fixed_point (n : nat) (d : Z) : string :=
  str_of_Z (d / 10 ^ Z.of_nat n) +:+
  match n with
  | O => ""
  | S _ => "." +:+ pad_digits n (d mod 10 ^ Z.of_nat n) ""
  end.

(** The exponent field of the 'e' presentation: sign and at least two
    digits. *)
Definition exponent_field (e : Z) : string :=
  "e" +:+ (if e <? 0 then "-" else "+") +:+
  (if Z.abs e <? 10 then "0" else "") +:+ str_of_Z (Z.abs e).

(** The 'g' presentation of a positive number with precision [p]: round
    to [p] significant digits (half to even); with [e] the decimal
    exponent of the rounded value, use fixed notation with [p-1-e]
    decimals when [-4 <= e < p] and scientific notation with [p-1]
    decimals otherwise; strip trailing zeros in both. *)
Definition format_pos_g (p : Z) (v : Q) : string :=
  let e0 := floor_log10 v in
  let d0 := round_half_even (v * pow10 (p - 1 - e0)) in
  let '(d, e) := if 10 ^ p <=? d0 then (10 ^ (p - 1), e0 + 1) else (d0, e0) in
  if (-4 <=? e) && (e <? p) then
    let '(n, m) := strip_zeros (Z.to_nat (p - 1 - e)) d in
    fixed_point n m
  else
    let '(n, m) := strip_zeros (Z.to_nat (p - 1)) d in
    fixed_point n m +:+ exponent_field e.

Definition format_g (p : Z) (v : Q) : string :=
  match Qnum v with
  | Z0 => "0"
  | Zpos _ => format_pos_g p v
  | Zneg _ => "-" +:+ format_pos_g p (- v)
  end.

End PyFormat.

(** ** [MyLogFormatter.__call__] *)

Module MyLogFormatter.
Import Decade PyFormat.

Local Open Scope string_scope.
Local Open Scope Z_scope.

(** [for mul, prefix in table: if x >= mul: break] over a non-empty
    literal table.  After the loop the variables hold the pair at which
    the loop broke, or the last pair when it never did. *)
Fixpoint for_break (x : Q) (cur : Q * string) (rest : list (Q * string))
  : Q * string :=
  match rest with
  | [] => cur
  | nxt :: rest' => if decide (fst cur <= x)%Q then cur else for_break x nxt rest'
  end.

(** The literal table of the loop, first entry and remaining entries. *)
Definition prefix_head : Q * string := (1000000%Q, "M").
Definition prefix_tail : list (Q * string) :=
  [ (1000%Q, "k"); (1%Q, ""); ((1 # 1000)%Q, "m") ].
Definition prefix_table : list (Q * string) := prefix_head :: prefix_tail.

Definition select_prefix (x : Q) : Q * string :=
  for_break x prefix_head prefix_tail.

(** [np.around(x * 10 ** -np.floor(np.log10(x)), 1)] *)
Definition mantisse (x : Q) : Q :=
  around1 (x * pow10 (- floor_log10 x)).

(** [mantisse in (6, 8, 9)] *)
Definition suppressed (m : Q) : bool :=
  bool_decide (m == 6)%Q || bool_decide (m == 8)%Q || bool_decide (m == 9)%Q.

Definition call (x : Q) : string :=
  if suppressed (mantisse x) then ""
  else
    let '(mul, prefix) := select_prefix x in
    format_g 3 (x / mul) +:+ prefix.

(** Reference notion: [(mul, prefix)] is the entry of the table with the
    largest multiplier not exceeding [x]. *)
Definition largest_not_exceeding (x mul : Q) (prefix : string) : Prop :=
  (mul, prefix) ∈ prefix_table
  ∧ (mul <= x)%Q
  ∧ ∀ mul' prefix', (mul', prefix') ∈ prefix_table → (mul' <= x)%Q → (mul' <= mul)%Q.

End MyLogFormatter.

(** ** The matplotlib objects the helpers act on *)

Module Mpl.

(** Tick locators: the ones the source constructs, and [OtherLocator] for
    whatever an axis carried before the call. *)
Inductive Locator :=
| OtherLocator (tag : nat)
| DayLocator
| WeekdayLocator (byweekday : Z)
| MonthLocator (bymonth : option (list Z))
| FixedLocator (locs : list Q).

(** Tick formatters: [DateFormatter fmt], the nested [MyLogFormatter]
    with its [minor_thresholds], and [OtherFormatter] for what was there
    before. *)
Inductive Formatter :=
| OtherFormatter (tag : nat)
| DateFormatter (fmt : string)
| LogFormatterSI (minor_thresholds : Z * Z).

(** A tick label ([matplotlib.text.Text]), with the two properties the
    source sets. *)
Record Text := mkText { rotation : Q; ha : string }.

Record GridStyle := mkGrid { color : string; alpha : Q }.

(** One of [ax.xaxis], [ax.yaxis].  A grid is [None] until [ax.grid]
    draws it. *)
Record Axis := mkAxis {
  major_locator : Locator;
  minor_locator : Locator;
  major_formatter : Formatter;
  minor_formatter : Formatter;
  minor_direction : option string;
  grid_major : option GridStyle;
  grid_minor : option GridStyle;
  ticklabels : list Text;
  label : string
}.

Record Axes := mkAxes {
  xlim : Q * Q;
  ylim : Q * Q;
  xaxis : Axis;
  yaxis : Axis
}.

Definition set_major_locator (l : Locator) (a : Axis) : Axis :=
  mkAxis l (minor_locator a) (major_formatter a) (minor_formatter a)
         (minor_direction a) (grid_major a) (grid_minor a) (ticklabels a) (label a).
Definition set_minor_locator (l : Locator) (a : Axis) : Axis :=
  mkAxis (major_locator a) l (major_formatter a) (minor_formatter a)
         (minor_direction a) (grid_major a) (grid_minor a) (ticklabels a) (label a).
Definition set_major_formatter (f : Formatter) (a : Axis) : Axis :=
  mkAxis (major_locator a) (minor_locator a) f (minor_formatter a)
         (minor_direction a) (grid_major a) (grid_minor a) (ticklabels a) (label a).
Definition set_minor_formatter (f : Formatter) (a : Axis) : Axis :=
  mkAxis (major_locator a) (minor_locator a) (major_formatter a) f
         (minor_direction a) (grid_major a) (grid_minor a) (ticklabels a) (label a).
Definition set_minor_direction (d : string) (a : Axis) : Axis :=
  mkAxis (major_locator a) (minor_locator a) (major_formatter a) (minor_formatter a)
         (Some d) (grid_major a) (grid_minor a) (ticklabels a) (label a).
Definition set_grid_major (g : GridStyle) (a : Axis) : Axis :=
  mkAxis (major_locator a) (minor_locator a) (major_formatter a) (minor_formatter a)
         (minor_direction a) (Some g) (grid_minor a) (ticklabels a) (label a).
Definition set_grid_minor (g : GridStyle) (a : Axis) : Axis :=
  mkAxis (major_locator a) (minor_locator a) (major_formatter a) (minor_formatter a)
         (minor_direction a) (grid_major a) (Some g) (ticklabels a) (label a).
Definition map_ticklabels (f : Text → Text) (a : Axis) : Axis :=
  mkAxis (major_locator a) (minor_locator a) (major_formatter a) (minor_formatter a)
         (minor_direction a) (grid_major a) (grid_minor a) (f <$> ticklabels a) (label a).
Definition set_label (s : string) (a : Axis) : Axis :=
  mkAxis (major_locator a) (minor_locator a) (major_formatter a) (minor_formatter a)
         (minor_direction a) (grid_major a) (grid_minor a) (ticklabels a) s.

Definition on_xaxis (f : Axis → Axis) (ax : Axes) : Axes :=
  mkAxes (xlim ax) (ylim ax) (f (xaxis ax)) (yaxis ax).
Definition on_yaxis (f : Axis → Axis) (ax : Axes) : Axes :=
  mkAxes (xlim ax) (ylim ax) (xaxis ax) (f (yaxis ax)).
Definition with_ylim (lim : Q * Q) (ax : Axes) : Axes :=
  mkAxes (xlim ax) lim (xaxis ax) (yaxis ax).

Definition set_rotation (r : Q) (t : Text) : Text := mkText r (ha t).
Definition set_ha (h : string) (t : Text) : Text := mkText (rotation t) h.

(** The arguments [which] and [axis] of [ax.grid]. *)
Inductive Which := Major | Minor.
Inductive AxisName := X | Y | Both.

(** [ax.grid(which=w, axis=n, color=c, alpha=a)] *)
Definition grid (w : Which) (n : AxisName) (g : GridStyle) (ax : Axes) : Axes :=
  let set := match w with Major => set_grid_major g | Minor => set_grid_minor g end in
  match n with
  | X => on_xaxis set ax
  | Y => on_yaxis set ax
  | Both => on_yaxis set (on_xaxis set ax)
  end.

(** The process-wide pyplot state as seen from one call: the axes [ax]
    passed to the helper and pyplot's current axes ([plt.gca()]).
    [other_gca = None] says the current axes is [ax] itself; otherwise it
    is a distinct object. *)
Record Pyplot := mkPyplot {
  ax : Axes;
  other_gca : option Axes
}.

(** Stateful code over [Pyplot]. *)
Definition Plt (A : Type) : Type := Pyplot → A * Pyplot.

#[global] Instance plt_ret : MRet Plt := λ A x s, (x, s).
#[global] Instance plt_bind : MBind Plt :=
  λ A B f m s, let '(x, s') := m s in f x s'.

Definition exec {A} (m : Plt A) (s : Pyplot) : Pyplot := snd (m s).

(** A method call on the argument [ax]. *)
Definition on_ax (f : Axes → Axes) : Plt unit :=
  λ s, ((), mkPyplot (f (ax s)) (other_gca s)).

(** A call that goes through [plt.gca()]. *)
Definition on_gca (f : Axes → Axes) : Plt unit :=
  λ s, ((), match other_gca s with
            | None => mkPyplot (f (ax s)) None
            | Some g => mkPyplot (ax s) (Some (f g))
            end).

Definition get_xlim : Plt (Q * Q) := λ s, (xlim (ax s), s).

(** [plt.xticks(rotation=r)]: with no tick arguments it updates every tick
    label of the x axis of the current axes. *)
Definition plt_xticks_rotation (r : Q) : Plt unit :=
  on_gca (on_xaxis (map_ticklabels (set_rotation r))).

End Mpl.

(** ** [tools.py] *)

Module Tools.
Import Decade Mpl.

Local Open Scope string_scope.

(** *** [pause_commandline] *)

(** What the process does on its console. *)
Inductive ConsoleEvent :=
| Input (prompt : string).

(** Default of the [msg] argument. *)
Definition default_msg : string := "Press Enter to continue.".

(** [os.environ] is a mapping from variable names to values; the function
    yields the console interactions it performs. *)
Definition pause_commandline (environ : gmap string string) (msg : string)
  : list ConsoleEvent :=
  if decide ("SPYDER_ARGS" ∉ dom environ) then [Input msg] else [].

(** *** [set_xaxis_dateformat] *)

Section DateAxis.

(** [pd.to_datetime(md.num2date(lim))] followed by [(date_hi - date_lo).days]:
    the whole days between the two view limits, as the date libraries
    compute them. *)
Variable days_between : Q * Q → Z.

(** Truthiness of the [xlabel] argument ([None] or a string). *)
Definition truthy (xlabel : option string) : bool :=
  match xlabel with
  | None => false
  | Some s => negb (String.eqb s "")
  end.

Definition black (a : Q) : GridStyle := mkGrid "black" a.

Definition when (b : bool) (m : Plt unit) : Plt unit :=
  if b then m else mret ().

(** Default of the [maxticks] argument. *)
Definition default_maxticks : Q := 10%Q.

(** The [if]/[elif] chain assigns [fmt] and [minor_grid] as it goes; here
    each branch yields the pair the two variables hold after it. *)
Definition set_xaxis_dateformat
    (xlabel : option string) (maxticks : Q) (yminor ticklabels : bool)
  : Plt unit :=
  lim ← get_xlim;
  let day_span := inject_Z (days_between lim) in
  let monday_locator := WeekdayLocator 0 in
  let minor_grid := false in
  '(fmt, minor_grid) ← (
    if decide (day_span <= maxticks)%Q then
      on_ax (on_xaxis (set_major_locator DayLocator)) ;;
      mret ("%a %Y-%m-%d", minor_grid)
    else if decide (day_span <= maxticks * 7)%Q then
      on_ax (on_xaxis (set_major_locator monday_locator)) ;;
      on_ax (on_xaxis (set_minor_locator DayLocator)) ;;
      mret ("%a %Y-%m-%d", true)
    else if decide (day_span <= maxticks * (61 # 2))%Q then
      on_ax (on_xaxis (set_major_locator (MonthLocator None))) ;;
      on_ax (on_xaxis (set_minor_locator monday_locator)) ;;
      on_ax (on_xaxis (set_minor_direction "in")) ;;
      mret ("%Y-%m-%d",
            if decide (day_span <= maxticks * 25)%Q then true else minor_grid)
    else
      on_ax (on_xaxis (set_major_locator (MonthLocator (Some [1; 4; 7; 10]%Z)))) ;;
      on_ax (on_xaxis (set_minor_locator (MonthLocator None))) ;;
      mret ("%Y-%m-%d", bool_decide (day_span < maxticks * 90)%Q)
    : Plt (string * bool));
  on_ax (grid Major Both (black (2 # 10))) ;;
  when minor_grid (on_ax (grid Minor X (black (1 # 10)))) ;;
  when yminor (on_ax (grid Minor Y (black (1 # 10)))) ;;
  when ticklabels (
    on_ax (on_xaxis (set_major_formatter (DateFormatter fmt))) ;;
    plt_xticks_rotation (-20) ;;
    on_ax (on_xaxis (map_ticklabels (set_ha "left")))) ;;
  when (truthy xlabel) (on_ax (on_xaxis (set_label (default "" xlabel)))).

End DateAxis.

(** *** [set_dense_minor_yticks] and [set_yaxis_log_minor_labels] *)

Section LogAxis.

(** [Axis.set_ticks] may move the view limits of its axis (it widens them
    to show every tick); [view_after_ticks ticks lim] is the vertical range
    the library leaves behind. *)
Variable view_after_ticks : list Q → Q * Q → Q * Q.

(** [ax.yaxis.set_ticks(ticks, minor=True)] *)
Definition yaxis_set_ticks_minor (ticks : list Q) (a : Axes) : Axes :=
  with_ylim (view_after_ticks ticks (ylim a))
            (on_yaxis (set_minor_locator (FixedLocator ticks)) a).

(** [np.arange(emin, emax)] on integral floats. *)
Definition arange (emin emax : Z) : list Z := seqZ emin (emax - emin).

Definition mantissas : list Q :=
  [ (15 # 10); 2; 3; 4; 5; 6; 7; 8; 9 ]%Q.

(** Lines 97-99: the broadcast product has one row per decade and one
    column per mantissa; the boolean mask flattens it row by row. *)
Definition dense_ticks (ymin ymax : Q) : list Q :=
  let emin := floor_log10 (ymin / 4) in
  let emax := ceil_log10 (ymax * 4) in
  let mticks := mantissas in
  let mticks :=
    k ← arange emin emax; (λ m, m * pow10 k)%Q <$> mticks in
  filter (λ t, (ymin / 4 < t)%Q ∧ (t < ymax * 4)%Q) mticks.

Definition set_dense_minor_yticks (a : Axes) : Axes :=
  let '(ymin, ymax) := ylim a in
  if decide (100 < ymax / ymin)%Q then a
  else
    let mticks := dense_ticks ymin ymax in
    with_ylim (ymin, ymax) (yaxis_set_ticks_minor mticks a).

Definition set_yaxis_log_minor_labels (a : Axes) : Axes :=
  let formatter := LogFormatterSI (2, 1) in
  let a := on_yaxis (set_minor_formatter formatter) a in
  let a := on_yaxis (set_major_formatter formatter) a in
  set_dense_minor_yticks a.

End LogAxis.

(** The label a formatter of the model prints for a tick value; the
    library formatters are not part of [tools.py]. *)
Definition format_tick (f : Formatter) (x : Q) : option string :=
  match f with
  | LogFormatterSI _ => Some (MyLogFormatter.call x)
  | _ => None
  end.

(** *** Reference tick set

    The set the source enumerates over a finite window of decades,
    written with the decade ranging over all integers. *)
Definition dense_tick_spec (ymin ymax : Q) (t : Q) : Prop :=
  ∃ (m : Q) (k : Z),
    m ∈ mantissas ∧ t = (m * pow10 k)%Q ∧ (ymin / 4 < t)%Q ∧ (t < ymax * 4)%Q.

End Tools.

(** ** Sample objects for the examples *)

Module Samples.
Import Decade Mpl.

Definition plain_axis : Axis :=
  mkAxis (OtherLocator 0) (OtherLocator 1) (OtherFormatter 0) (OtherFormatter 1)
         None None None [mkText 0 "center"; mkText 0 "center"] "".

Definition plain_axes (xl yl : Q * Q) : Axes :=
  mkAxes xl yl plain_axis plain_axis.

(** A single axes that is also pyplot's current one. *)
Definition single (xl yl : Q * Q) : Pyplot :=
  mkPyplot (plain_axes xl yl) None.

(** Date numbers one day apart per unit; whole days by [Qfloor]. *)
Definition floor_days (lim : Q * Q) : Z := Qfloor (snd lim - fst lim).

(** A library that widens the view to the extreme ticks. *)
Definition widen (ticks : list Q) (lim : Q * Q) : Q * Q :=
  foldr (λ t l, (if decide (t < fst l)%Q then t else fst l,
                 if decide (snd l < t)%Q then t else snd l)) lim ticks.

End Samples.

(** * Properties *)

(** ** Decades *)

Section DecadeFacts.
Import Decade.
Local Open Scope Q_scope.

Lemma pow10_pos (k : Z) : 0 < pow10 k.
Proof. apply Qpower_0_lt. reflexivity. Qed.

Lemma pow10_lt (a b : Z) : (a < b)%Z → pow10 a < pow10 b.
Proof. intros H. apply Qpower_lt_compat_l; [exact H | reflexivity]. Qed.

Lemma pow10_le (a b : Z) : (a <= b)%Z → pow10 a <= pow10 b.
Proof. intros H. apply Qpower_le_compat_l; [exact H | discriminate]. Qed.

Lemma pow10_lt_inv (a b : Z) : pow10 a < pow10 b → (a < b)%Z.
Proof. intros H. eapply Qpower_lt_compat_l_inv; [exact H | reflexivity]. Qed.

Lemma pow10_succ (k : Z) : pow10 (k + 1) == pow10 k * 10.
Proof. unfold pow10. rewrite Qpower_plus by discriminate. reflexivity. Qed.

Lemma pow10_inject (n : Z) : (0 <= n)%Z → pow10 n == inject_Z (10 ^ n).
Proof. intros H. unfold pow10. rewrite Zpower_Qpower by exact H. reflexivity. Qed.

Lemma pow10_opp (k : Z) : pow10 (- k) == / pow10 k.
Proof. apply Qpower_opp. Qed.

(** A positive integer is below ten to the power of its binary length. *)
Lemma pos_lt_pow10_log2 (p : positive) :
  (Zpos p < 10 ^ (Z.log2 (Zpos p) + 1))%Z.
Proof.
  pose proof (Z.log2_nonneg (Zpos p)) as Hnn.
  pose proof (Z.log2_spec (Zpos p) ltac:(lia)) as [_ Hlt].
  eapply Z.lt_le_trans; [exact Hlt |].
  replace (Z.succ (Z.log2 (Z.pos p))) with (Z.log2 (Z.pos p) + 1)%Z by lia.
  apply Z.pow_le_mono_l. lia.
Qed.

Lemma decade_below_spec (fuel : nat) (k : Z) (x : Q) :
  x < pow10 (k + 1) →
  pow10 (k - Z.of_nat fuel) <= x →
  pow10 (decade_below fuel k x) <= x < pow10 (decade_below fuel k x + 1).
Proof.
  revert k. induction fuel as [|fuel IH]; intros k Hup Hlow; simpl.
  - replace (k - Z.of_nat 0)%Z with k in Hlow by lia. split; assumption.
  - destruct (decide (pow10 k <= x)) as [Hk|Hk].
    + split; assumption.
    + apply IH.
      * replace (k - 1 + 1)%Z with k by lia. apply Qnot_le_lt. exact Hk.
      * replace (k - 1 - Z.of_nat fuel)%Z with (k - Z.of_nat (S fuel))%Z by lia.
        exact Hlow.
Qed.

(** [floor_log10 x] is the decade of [x]. *)
Lemma floor_log10_spec (x : Q) :
  0 < x → pow10 (floor_log10 x) <= x < pow10 (floor_log10 x + 1).
Proof.
  destruct x as [n d]. unfold floor_log10. simpl Qnum. simpl Qden.
  destruct n as [|n|n]; intros Hx; try (exfalso; revert Hx; unfold Qlt; simpl; lia).
  pose proof (Z.log2_nonneg (Zpos n)) as Hn0.
  pose proof (Z.log2_nonneg (Zpos d)) as Hd0.
  pose proof (pos_lt_pow10_log2 n) as Hn.
  pose proof (pos_lt_pow10_log2 d) as Hd.
  apply decade_below_spec.
  - rewrite pow10_inject by lia.
    set (N := (10 ^ (Z.log2 (Z.pos n) + 1))%Z) in *.
    unfold Qlt. cbn [Qnum Qden inject_Z]. nia.
  - rewrite Z2Nat.id by lia.
    replace (Z.log2 (Z.pos n) - (Z.log2 (Z.pos n) - - (Z.log2 (Z.pos d) + 1)))%Z
      with (- (Z.log2 (Z.pos d) + 1))%Z by lia.
    rewrite pow10_opp, pow10_inject by lia.
    set (D := (10 ^ (Z.log2 (Z.pos d) + 1))%Z) in *.
    assert (HD : (0 < D)%Z) by lia.
    destruct D as [|D|D]; try lia.
    unfold Qle, Qinv. cbn [Qnum Qden inject_Z]. nia.
Qed.

Lemma floor_log10_unique (x : Q) (k : Z) :
  pow10 k <= x → x < pow10 (k + 1) → 0 < x → floor_log10 x = k.
Proof.
  intros Hlo Hhi Hx. destruct (floor_log10_spec x Hx) as [Flo Fhi].
  assert (pow10 k < pow10 (floor_log10 x + 1)) as H1
    by (eapply Qle_lt_trans; eassumption).
  assert (pow10 (floor_log10 x) < pow10 (k + 1)) as H2
    by (eapply Qle_lt_trans; eassumption).
  apply pow10_lt_inv in H1, H2. lia.
Qed.

(** [ceil_log10 x] is the least decade not below [x]. *)
Lemma ceil_log10_spec (x : Q) :
  0 < x → pow10 (ceil_log10 x - 1) < x ∧ x <= pow10 (ceil_log10 x).
Proof.
  intros Hx. destruct (floor_log10_spec x Hx) as [Flo Fhi].
  unfold ceil_log10. destruct (decide (pow10 (floor_log10 x) == x)) as [He|He].
  - split.
    + rewrite <- He at 2. apply pow10_lt. lia.
    + rewrite He. apply Qle_refl.
  - replace (floor_log10 x + 1 - 1)%Z with (floor_log10 x) by lia. split.
    + apply Qle_lteq in Flo. destruct Flo as [Hlt|Heq]; [exact Hlt | contradiction].
    + apply Qlt_le_weak. exact Fhi.
Qed.

(** A value scaled by its decade lies in [1, 10). *)
Lemma scaled_in_decade (x : Q) :
  0 < x →
  1 <= x * pow10 (- floor_log10 x) ∧ x * pow10 (- floor_log10 x) < 10.
Proof.
  intros Hx. destruct (floor_log10_spec x Hx) as [Flo Fhi].
  rewrite pow10_succ in Fhi.
  pose proof (pow10_pos (floor_log10 x)) as HP.
  assert (x * pow10 (- floor_log10 x) == x / pow10 (floor_log10 x)) as ->
    by (rewrite pow10_opp; reflexivity).
  split.
  - apply Qle_shift_div_l; [exact HP | lra].
  - apply Qlt_shift_div_r; [exact HP | lra].
Qed.

Lemma Qfloor_bounds (q : Q) :
  inject_Z (Qfloor q) <= q ∧ q < inject_Z (Qfloor q) + 1.
Proof.
  split; [apply Qfloor_le |].
  pose proof (Qlt_floor q) as H. rewrite inject_Z_plus in H. exact H.
Qed.

(** Rounding moves a value by at most one half. *)
Lemma round_half_even_near (q : Q) :
  inject_Z (round_half_even q) - (1 # 2) <= q
  ∧ q <= inject_Z (round_half_even q) + (1 # 2).
Proof.
  unfold round_half_even. destruct (Qfloor_bounds q) as [Hlo Hhi].
  destruct (Qcompare_spec (q - inject_Z (Qfloor q)) (1 # 2)) as [He | Hl | Hg];
    try destruct (Z.even (Qfloor q));
    rewrite ?inject_Z_plus; change (inject_Z 1) with 1; split; lra.
Qed.

(** An even integer is the rounding of exactly the values within one half
    of it, ties included. *)
Lemma round_half_even_even (q : Q) (n : Z) :
  Z.even n = true →
  (round_half_even q = n ↔
   inject_Z n - (1 # 2) <= q ∧ q <= inject_Z n + (1 # 2)).
Proof.
  intros Hn. split.
  - intros <-. apply round_half_even_near.
  - intros [Hlo Hhi]. destruct (Qfloor_bounds q) as [Flo Fhi].
    assert (Qfloor q = n - 1 ∨ Qfloor q = n)%Z as Hf.
    { assert (inject_Z (n + -1) < inject_Z (Qfloor q + 1)) as H1
        by (rewrite !inject_Z_plus; change (inject_Z 1) with 1;
            change (inject_Z (-1)) with (-1); lra).
      assert (inject_Z (Qfloor q) < inject_Z (n + 1)) as H2
        by (rewrite inject_Z_plus; change (inject_Z 1) with 1; lra).
      rewrite <- Zlt_Qlt in H1, H2. lia. }
    unfold round_half_even.
    destruct (Qcompare_spec (q - inject_Z (Qfloor q)) (1 # 2)) as [He | Hl | Hg];
      destruct Hf as [Hf | Hf]; rewrite Hf in *.
    + replace (Z.even (n - 1)) with false; [lia |].
      rewrite Z.even_sub, Hn. reflexivity.
    + rewrite Hn. reflexivity.
    + exfalso. change (n - 1)%Z with (n + -1)%Z in Hl.
      rewrite inject_Z_plus in Hl. change (inject_Z (-1)) with (-1) in Hl. lra.
    + reflexivity.
    + lia.
    + exfalso. lra.
Qed.

End DecadeFacts.

(** ** [pause_commandline] *)

Section Pause.
Import Tools.

(** C7: [pause_commandline] prompts on the console exactly when the
    variable SPYDER_ARGS is absent from the environment; when it is present
    the function performs no console interaction at all. *)
Theorem pause_commandline_prompts_iff_absent
    (environ : gmap string string) (msg : string) :
  (Input msg ∈ pause_commandline environ msg ↔ environ !! "SPYDER_ARGS" = None)
  ∧ (pause_commandline environ msg = [] ↔ is_Some (environ !! "SPYDER_ARGS"))
  ∧ (pause_commandline environ msg = [Input msg]
     ∨ pause_commandline environ msg = []).
Proof.
  unfold pause_commandline.
  destruct (decide ("SPYDER_ARGS" ∉ dom environ)) as [Hn|Hn].
  - apply not_elem_of_dom in Hn. rewrite Hn. repeat split; try tauto.
    + intros _. apply list_elem_of_singleton. reflexivity.
    + discriminate.
    + intros [v Hv]. discriminate.
  - apply dec_stable in Hn. apply elem_of_dom in Hn. repeat split; try tauto.
    + intros H. apply elem_of_nil in H. contradiction.
    + intros H. rewrite H in Hn. destruct Hn as [v Hv]. discriminate.
Qed.

(** From a plain shell the default prompt is shown; under Spyder nothing
    happens. *)
Example pause_in_shell_and_spyder :
  pause_commandline ∅ default_msg = [Input default_msg]
  ∧ pause_commandline {[ "SPYDER_ARGS" := "--new-instance" ]} default_msg = [].
Proof. split; reflexivity. Qed.

End Pause.

(** ** [set_xaxis_dateformat] *)

Section DateAxisFacts.
Import Decade Mpl Tools.
Local Open Scope Q_scope.

Variable days_between : Q * Q → Z.

Ltac run_plt :=
  unfold exec, set_xaxis_dateformat, when, plt_xticks_rotation,
    on_gca, on_ax, get_xlim, mbind, mret, plt_bind, plt_ret;
  cbn beta iota zeta.

Ltac split_cases :=
  repeat match goal with
    | |- context [decide ?P] => destruct (decide P)
    | |- context [bool_decide ?P] => destruct (bool_decide_reflect P)
    | |- context [truthy ?x] => destruct (truthy x)
    | |- context [match other_gca ?s with _ => _ end] => destruct (other_gca s)
    end.

(** C1: the span of the horizontal range selects the locators, the date
    format and the minor x-grid by the four rows of the decision table.
    The format is the one installed when tick labels are requested; a grid
    or locator the row does not set is left as it was. *)
Theorem set_xaxis_dateformat_decision_table
    (s : Pyplot) (xlabel : option string) (M : Q) (yminor ticklabels : bool) :
  let day_span := inject_Z (days_between (xlim (ax s))) in
  let s' := exec (set_xaxis_dateformat days_between xlabel M yminor ticklabels) s in
  let x := xaxis (ax s) in
  let x' := xaxis (ax s') in
  let format fmt :=
    major_formatter x' = if ticklabels then DateFormatter fmt else major_formatter x in
  let minor_x_grid (on : bool) :=
    grid_minor x' = if on then Some (black (1 # 10)) else grid_minor x in
  (day_span <= M →
     major_locator x' = DayLocator ∧ minor_locator x' = minor_locator x
     ∧ format "%a %Y-%m-%d"%string ∧ minor_x_grid false)
  ∧ (M < day_span ∧ day_span <= 7 * M →
     major_locator x' = WeekdayLocator 0 ∧ minor_locator x' = DayLocator
     ∧ format "%a %Y-%m-%d"%string ∧ minor_x_grid true)
  ∧ (7 * M < day_span ∧ day_span <= (61 # 2) * M →
     major_locator x' = MonthLocator None ∧ minor_locator x' = WeekdayLocator 0
     ∧ format "%Y-%m-%d"%string ∧ minor_x_grid (bool_decide (day_span <= 25 * M)))
  ∧ (¬ day_span <= M ∧ ¬ (M < day_span ∧ day_span <= 7 * M)
     ∧ ¬ (7 * M < day_span ∧ day_span <= (61 # 2) * M) →
     major_locator x' = MonthLocator (Some [1; 4; 7; 10]%Z)
     ∧ minor_locator x' = MonthLocator None
     ∧ format "%Y-%m-%d"%string ∧ minor_x_grid (bool_decide (day_span < 90 * M))).
Proof.
  destruct s as [a g]. cbv zeta. run_plt. cbn [ax xlim other_gca].
  generalize (inject_Z (days_between (xlim a))). intros d.
  split; [| split; [| split]]; intros Hrow; split_cases;
    destruct g, yminor, ticklabels; cbn; repeat split; try reflexivity;
    exfalso; try lra;
    destruct Hrow as (H1 & H2 & H3);
    first [ apply H2; split; lra | apply H3; split; lra ].
Qed.

(** C2: the thresholds are inclusive.  With a positive [maxticks], a span
    of exactly [maxticks], [7*maxticks] or [30.5*maxticks] takes the row of
    the shorter span; at exactly [25*maxticks] the minor x-grid is drawn
    and at exactly [90*maxticks] it is not. *)
Theorem set_xaxis_dateformat_thresholds_inclusive
    (s : Pyplot) (xlabel : option string) (M : Q) (yminor ticklabels : bool) :
  0 < M →
  let day_span := inject_Z (days_between (xlim (ax s))) in
  let s' := exec (set_xaxis_dateformat days_between xlabel M yminor ticklabels) s in
  let x := xaxis (ax s) in
  let x' := xaxis (ax s') in
  (day_span == M →
     major_locator x' = DayLocator ∧ grid_minor x' = grid_minor x)
  ∧ (day_span == 7 * M →
     major_locator x' = WeekdayLocator 0 ∧ minor_locator x' = DayLocator)
  ∧ (day_span == (61 # 2) * M →
     major_locator x' = MonthLocator None ∧ minor_locator x' = WeekdayLocator 0)
  ∧ (day_span == 25 * M →
     major_locator x' = MonthLocator None
     ∧ grid_minor x' = Some (black (1 # 10)))
  ∧ (day_span == 90 * M →
     major_locator x' = MonthLocator (Some [1; 4; 7; 10]%Z)
     ∧ grid_minor x' = grid_minor x).
Proof.
  intros HM. destruct s as [a g]. cbv zeta. run_plt. cbn [ax xlim other_gca].
  generalize (inject_Z (days_between (xlim a))). intros d.
  split; [| split; [| split; [| split]]]; intros Hd; split_cases;
    destruct g, yminor, ticklabels; cbn; repeat split; try reflexivity;
    exfalso; lra.
Qed.

(** C10: the optional effects happen only on request.  Without tick labels
    the formatter, the tick labels of the axes (rotation and alignment) and
    pyplot's current axes are as before; without an x-label the label is as
    before; the view limits of the axes and of pyplot's current axes are
    never changed. *)
Theorem set_xaxis_dateformat_frame
    (s : Pyplot) (xlabel : option string) (M : Q) (yminor tl : bool) :
  let run tl xlabel := exec (set_xaxis_dateformat days_between xlabel M yminor tl) s in
  (major_formatter (xaxis (ax (run false xlabel))) = major_formatter (xaxis (ax s))
   ∧ ticklabels (xaxis (ax (run false xlabel))) = ticklabels (xaxis (ax s))
   ∧ other_gca (run false xlabel) = other_gca s)
  ∧ label (xaxis (ax (run tl None))) = label (xaxis (ax s))
  ∧ (xlim (ax (run tl xlabel)) = xlim (ax s)
     ∧ ylim (ax (run tl xlabel)) = ylim (ax s)
     ∧ xlim <$> other_gca (run tl xlabel) = xlim <$> other_gca s
     ∧ ylim <$> other_gca (run tl xlabel) = ylim <$> other_gca s).
Proof.
  destruct s as [a g]. cbv zeta. run_plt. cbn [ax xlim other_gca].
  generalize (inject_Z (days_between (xlim a))). intros d.
  repeat split; cbn [truthy]; split_cases; destruct g, yminor, tl; cbn; reflexivity.
Qed.

End DateAxisFacts.

Section DateAxisExamples.
Import Decade Mpl Tools Samples.
Local Open Scope Q_scope.

(** The four rows of the table, at ranges of 5, 50, 200 and 1000 days with
    the default [maxticks = 10]. *)
Lemma decision_table_rows :
  let run hi :=
    xaxis (ax (exec (set_xaxis_dateformat floor_days None default_maxticks false true)
                    (single (0, hi) (0, 1)))) in
  major_locator (run 5) = DayLocator
  ∧ major_locator (run 50) = WeekdayLocator 0
  ∧ major_locator (run 200) = MonthLocator None
  ∧ major_locator (run 1000) = MonthLocator (Some [1; 4; 7; 10]%Z).
Proof.
  cbv zeta. split; [| split; [| split]].
  - apply (set_xaxis_dateformat_decision_table
             floor_days (single (0, 5) (0, 1)) None default_maxticks false true).
    vm_compute. discriminate.
  - apply (proj1 (proj2 (set_xaxis_dateformat_decision_table
             floor_days (single (0, 50) (0, 1)) None default_maxticks false true))).
    split; vm_compute; congruence.
  - apply (proj1 (proj2 (proj2 (set_xaxis_dateformat_decision_table
             floor_days (single (0, 200) (0, 1)) None default_maxticks false true)))).
    split; vm_compute; congruence.
  - apply (proj2 (proj2 (proj2 (set_xaxis_dateformat_decision_table
             floor_days (single (0, 1000) (0, 1)) None default_maxticks false true)))).
    repeat split; vm_compute; intuition congruence.
Defined.

(** The thresholds at [maxticks = 2]: 2, 14, 61, 50 and 180 days. *)
Lemma thresholds_at_two :
  let run hi :=
    xaxis (ax (exec (set_xaxis_dateformat floor_days None 2 false true)
                    (single (0, hi) (0, 1)))) in
  major_locator (run 2) = DayLocator
  ∧ major_locator (run 14) = WeekdayLocator 0
  ∧ major_locator (run 61) = MonthLocator None
  ∧ grid_minor (run 50) = Some (black (1 # 10))
  ∧ grid_minor (run 180) = None.
Proof.
  cbv zeta. split; [| split; [| split; [| split]]].
  - apply (set_xaxis_dateformat_thresholds_inclusive
             floor_days (single (0, 2) (0, 1)) None 2 false true);
      reflexivity.
  - apply (proj1 (proj2 (set_xaxis_dateformat_thresholds_inclusive
             floor_days (single (0, 14) (0, 1)) None 2 false true eq_refl)));
      reflexivity.
  - apply (proj1 (proj2 (proj2 (set_xaxis_dateformat_thresholds_inclusive
             floor_days (single (0, 61) (0, 1)) None 2 false true eq_refl))));
      reflexivity.
  - apply (proj1 (proj2 (proj2 (proj2 (set_xaxis_dateformat_thresholds_inclusive
             floor_days (single (0, 50) (0, 1)) None 2 false true eq_refl)))));
      reflexivity.
  - apply (proj2 (proj2 (proj2 (proj2 (set_xaxis_dateformat_thresholds_inclusive
             floor_days (single (0, 180) (0, 1)) None 2 false true eq_refl)))));
      reflexivity.
Defined.

End DateAxisExamples.

(** ** [MyLogFormatter] *)

Section FormatterFacts.
Import Decade PyFormat MyLogFormatter.
Local Open Scope Q_scope.

Lemma digits_acc_nonempty (fuel : nat) (n : Z) (acc : string) :
  acc ≠ EmptyString → digits_acc fuel n acc ≠ EmptyString.
Proof.
  revert n acc. induction fuel as [|fuel IH]; intros n acc Hacc; simpl.
  - exact Hacc.
  - destruct (n / 10 =? 0)%Z; [discriminate | apply IH; discriminate].
Qed.

Lemma str_of_Z_nonempty (n : Z) : str_of_Z n ≠ EmptyString.
Proof.
  unfold str_of_Z. simpl.
  destruct (n / 10 =? 0)%Z; [discriminate |].
  apply digits_acc_nonempty. discriminate.
Qed.

Lemma append_nonempty_l (a b : string) :
  a ≠ EmptyString → (a +:+ b)%string ≠ EmptyString.
Proof. destruct a; [congruence | discriminate]. Qed.

Lemma fixed_point_nonempty (n : nat) (d : Z) : fixed_point n d ≠ EmptyString.
Proof. apply append_nonempty_l, str_of_Z_nonempty. Qed.

Lemma format_pos_g_nonempty (p : Z) (v : Q) : format_pos_g p v ≠ EmptyString.
Proof.
  unfold format_pos_g.
  destruct (10 ^ p <=? round_half_even (v * pow10 (p - 1 - floor_log10 v)))%Z;
    match goal with |- context [if ?b then _ else _] => destruct b end;
    match goal with |- context [strip_zeros ?n ?d] => destruct (strip_zeros n d) end;
    first [ apply fixed_point_nonempty
          | apply append_nonempty_l, fixed_point_nonempty ].
Qed.

(** A rendered number is never the empty string. *)
Lemma format_g_nonempty (p : Z) (v : Q) : format_g p v ≠ EmptyString.
Proof.
  unfold format_g. destruct (Qnum v).
  - discriminate.
  - apply format_pos_g_nonempty.
  - discriminate.
Qed.

Lemma suppressed_iff (m : Q) :
  suppressed m = true ↔ m == 6 ∨ m == 8 ∨ m == 9.
Proof.
  unfold suppressed.
  rewrite !orb_true_iff, !bool_decide_eq_true. tauto.
Qed.

(** [np.around(v, 1)] is the integer [k] exactly on the closed interval
    of radius 0.05 around [k]: both end points are ties and [10 * k] is
    even. *)
Lemma around1_integer (v : Q) (k : Z) :
  around1 v == inject_Z k ↔
  inject_Z k - (1 # 20) <= v ∧ v <= inject_Z k + (1 # 20).
Proof.
  unfold around1.
  assert (Z.even (10 * k) = true) as He by (rewrite Z.even_mul; reflexivity).
  pose proof (round_half_even_even (v * 10) (10 * k) He) as Hr.
  rewrite inject_Z_mult in Hr. change (inject_Z 10) with 10 in Hr.
  split.
  - intros H.
    assert (round_half_even (v * 10) = (10 * k)%Z) as Hk.
    { apply inject_Z_injective. rewrite inject_Z_mult.
      change (inject_Z 10) with 10.
      apply (Qmult_inj_r _ _ (/ 10)); [discriminate |].
      rewrite H. field. }
    apply Hr in Hk. lra.
  - intros [Hlo Hhi].
    assert (round_half_even (v * 10) = (10 * k)%Z) as Hk by (apply Hr; lra).
    rewrite Hk, inject_Z_mult. change (inject_Z 10) with 10. field.
Qed.

(** The labels that are suppressed, in terms of the scaled value. *)
Lemma suppressed_intervals (x : Q) :
  let v := x * pow10 (- floor_log10 x) in
  suppressed (mantisse x) = true ↔
  ((595 # 100) <= v ∧ v <= (605 # 100))
  ∨ ((795 # 100) <= v ∧ v <= (805 # 100))
  ∨ ((895 # 100) <= v ∧ v <= (905 # 100)).
Proof.
  cbv zeta. rewrite suppressed_iff. unfold mantisse.
  pose proof (around1_integer (x * pow10 (- floor_log10 x)) 6) as H6.
  pose proof (around1_integer (x * pow10 (- floor_log10 x)) 8) as H8.
  pose proof (around1_integer (x * pow10 (- floor_log10 x)) 9) as H9.
  change (inject_Z 6) with 6 in H6. change (inject_Z 8) with 8 in H8.
  change (inject_Z 9) with 9 in H9.
  rewrite H6, H8, H9.
  split; (intros [H | [H | H]]; [left | right; left | right; right]); lra.
Qed.

(** The loop leaves the first entry it can break at, or the last one. *)
Lemma select_prefix_cases (x : Q) :
  (1000000 <= x ∧ select_prefix x = (1000000, "M"%string))
  ∨ (x < 1000000 ∧ 1000 <= x ∧ select_prefix x = (1000, "k"%string))
  ∨ (x < 1000 ∧ 1 <= x ∧ select_prefix x = (1, ""%string))
  ∨ (x < 1 ∧ select_prefix x = (1 # 1000, "m"%string)).
Proof.
  unfold select_prefix, prefix_head, prefix_tail, for_break. cbn [fst].
  destruct (decide (1000000 <= x)) as [H1|H1]; [left; split; [exact H1 | reflexivity] |].
  destruct (decide (1000 <= x)) as [H2|H2];
    [right; left; repeat split; [lra | exact H2] |].
  destruct (decide (1 <= x)) as [H3|H3];
    [right; right; left; repeat split; [lra | exact H3] |].
  right; right; right. split; [lra | reflexivity].
Qed.

(** C3: for a positive tick value the label is empty exactly when the
    mantissa, rounded to one decimal, is 6, 8 or 9; 600 and 80000 get an
    empty label. *)
Theorem formatter_empty_iff_mantissa_6_8_9 :
  (∀ x : Q, 0 < x →
     (call x = EmptyString ↔
      mantisse x == 6 ∨ mantisse x == 8 ∨ mantisse x == 9))
  ∧ call 600 = EmptyString
  ∧ call 80000 = EmptyString.
Proof.
  split; [| split; vm_compute; reflexivity].
  intros x _. rewrite <- suppressed_iff. unfold call.
  destruct (suppressed (mantisse x)).
  - tauto.
  - destruct (select_prefix x) as [mul prefix]. split; [| discriminate].
    intros H. exfalso. revert H. apply append_nonempty_l, format_g_nonempty.
Qed.

(** C4, as amended: for a tick value of at least 1e-3 whose mantissa is not
    suppressed, the label is the value divided by the largest multiplier of
    the table not exceeding it, in three significant figures, followed by
    that multiplier's prefix; 1500 gives "1.5k" and 2000000 gives "2M". *)
Theorem formatter_largest_prefix :
  (∀ x : Q, (1 # 1000) <= x → suppressed (mantisse x) = false →
     ∃ mul prefix,
       largest_not_exceeding x mul prefix
       ∧ call x = (format_g 3 (x / mul) +:+ prefix)%string)
  ∧ call 1500 = "1.5k"%string
  ∧ call 2000000 = "2M"%string.
Proof.
  split; [| split; vm_compute; reflexivity].
  intros x Hx Hs. unfold call. rewrite Hs.
  assert (∀ mul prefix,
            (mul, prefix) ∈ prefix_table →
            mul = 1000000 ∨ mul = 1000 ∨ mul = 1 ∨ mul = 1 # 1000) as Htab.
  { intros mul prefix H. unfold prefix_table, prefix_head, prefix_tail in H.
    repeat (apply elem_of_cons in H as [[= -> ->] | H]; [tauto |]).
    apply elem_of_nil in H. contradiction. }
  destruct (select_prefix_cases x)
    as [[H1 ->] | [(H1 & H2 & ->) | [(H1 & H2 & ->) | [H1 ->]]]];
    eexists _, _; (split; [| reflexivity]);
    (split; [unfold prefix_table, prefix_head, prefix_tail; set_solver |]);
    (split; [lra |]);
    intros mul' p' Hin Hle;
    destruct (Htab _ _ Hin) as [-> | [-> | [-> | ->]]]; lra.
Qed.

(** The statement of C4 without the lower bound fails at 0.0005: no
    multiplier of the table is at most 0.0005. *)
Lemma formatter_largest_prefix_fails_below_milli :
  ¬ (∀ x : Q, 0 < x → suppressed (mantisse x) = false →
       ∃ mul prefix,
         largest_not_exceeding x mul prefix
         ∧ call x = (format_g 3 (x / mul) +:+ prefix)%string).
Proof.
  intros H.
  destruct (H (5 # 10000) eq_refl eq_refl) as (mul & prefix & (Hin & Hle & _) & _).
  unfold prefix_table, prefix_head, prefix_tail in Hin.
  repeat (apply elem_of_cons in Hin as [[= -> ->] | Hin];
          [revert Hle; vm_compute; congruence |]).
  apply elem_of_nil in Hin. contradiction.
Qed.

(** C8, as amended: below 1e-3 the loop never breaks and ends on the last
    entry, so a positive value below 1e-3 whose mantissa is not suppressed
    is rendered in units of 1e-3 with the prefix "m". *)
Theorem formatter_small_values_milli (x : Q) :
  0 < x → x < (1 # 1000) →
  select_prefix x = (1 # 1000, "m"%string)
  ∧ (suppressed (mantisse x) = false →
     call x = (format_g 3 (x / (1 # 1000)) +:+ "m")%string).
Proof.
  intros Hpos Hx.
  assert (select_prefix x = (1 # 1000, "m"%string)) as Hsel.
  { destruct (select_prefix_cases x)
      as [[H1 _] | [(_ & H2 & _) | [(_ & H2 & _) | [_ H]]]];
      [exfalso; lra | exfalso; lra | exfalso; lra | exact H]. }
  split; [exact Hsel |].
  intros Hs. unfold call. rewrite Hs, Hsel. reflexivity.
Qed.

(** The statement of C8 for every positive value below 1e-3 fails at
    0.0006, whose label is suppressed. *)
Lemma formatter_small_values_suppressed :
  ¬ (∀ x : Q, 0 < x → x < (1 # 1000) →
       call x = (format_g 3 (x / (1 # 1000)) +:+ "m")%string).
Proof.
  intros H. specialize (H (6 # 10000) eq_refl eq_refl).
  vm_compute in H. discriminate.
Qed.

End FormatterFacts.

Section FormatterExamples.
Import Decade PyFormat MyLogFormatter.
Local Open Scope Q_scope.

(** Python renders these values with ['.3g'] as shown. *)
Example format_3g_samples :
  map (format_g 3)
      [ 1.5; 2; 150; 999.6; 2000; 0.5; 0.001; 0.00012345; 0.00001; 123456; 99.95 ]
  = [ "1.5"; "2"; "150"; "1e+03"; "2e+03"; "0.5"; "0.001"; "0.000123"; "1e-05";
      "1.23e+05"; "100" ]%string.
Proof. vm_compute. reflexivity. Qed.

(** Labels over five decades. *)
Example call_samples :
  map call [ 0.0005; 0.002; 0.95; 1.5; 15; 700; 1500; 2000000; 2000000000 ]
  = [ "0.5m"; "2m"; "950m"; "1.5"; "15"; "700"; "1.5k"; "2M"; "2e+03M" ]%string.
Proof. vm_compute. reflexivity. Qed.

(** 700 is labelled, 600 is not. *)
Lemma labels_of_600_and_700 :
  call 600 = EmptyString ∧ call 700 ≠ EmptyString.
Proof.
  destruct formatter_empty_iff_mantissa_6_8_9 as [Hiff _]. split.
  - apply (Hiff 600); [reflexivity | left; reflexivity].
  - intros H. apply (Hiff 700) in H; [| reflexivity].
    revert H. vm_compute. intuition congruence.
Defined.

(** 0.95 lies between 1e-3 and 1 and is rendered as "950m". *)
Lemma label_of_0_95 :
  ∃ mul prefix,
    largest_not_exceeding (95 # 100) mul prefix
    ∧ call (95 # 100) = (format_g 3 ((95 # 100) / mul) +:+ prefix)%string.
Proof.
  apply (proj1 formatter_largest_prefix (95 # 100)).
  - vm_compute. discriminate.
  - reflexivity.
Defined.

(** 0.0005 is rendered as "0.5m". *)
Lemma label_of_0_0005 :
  select_prefix (5 # 10000) = (1 # 1000, "m"%string)
  ∧ call (5 # 10000) = "0.5m"%string.
Proof.
  destruct (formatter_small_values_milli (5 # 10000) eq_refl eq_refl) as [Hsel Hcall].
  split; [exact Hsel |]. rewrite Hcall; reflexivity.
Defined.

End FormatterExamples.

(** ** [set_dense_minor_yticks] and [set_yaxis_log_minor_labels] *)

Section LogAxisFacts.
Import Decade Mpl Tools.
Local Open Scope Q_scope.

Variable view_after_ticks : list Q → Q * Q → Q * Q.

Lemma mantissas_bounds (m : Q) : m ∈ mantissas → 1 < m ∧ m < 10.
Proof.
  unfold mantissas. intros H.
  repeat (apply elem_of_cons in H as [-> | H]; [split; reflexivity |]).
  apply elem_of_nil in H. contradiction.
Qed.

(** Membership in the tick list the source builds. *)
Lemma dense_ticks_elem (ymin ymax t : Q) :
  t ∈ dense_ticks ymin ymax ↔
  ∃ (m : Q) (k : Z),
    m ∈ mantissas
    ∧ (floor_log10 (ymin / 4) <= k < ceil_log10 (ymax * 4))%Z
    ∧ t = m * pow10 k
    ∧ ymin / 4 < t ∧ t < ymax * 4.
Proof.
  unfold dense_ticks, arange. cbv zeta.
  rewrite list_elem_of_filter, list_elem_of_bind. split.
  - intros [[Hlo Hhi] (k & Hm & Hk)].
    apply list_elem_of_fmap in Hm as (m & -> & Hm).
    apply elem_of_seqZ in Hk.
    exists m, k. repeat split; try assumption; lia.
  - intros (m & k & Hm & Hk & -> & Hlo & Hhi). split; [split; assumption |].
    exists k. split.
    + apply list_elem_of_fmap. exists m. split; [reflexivity | exact Hm].
    + apply elem_of_seqZ. lia.
Qed.

(** A candidate strictly inside the padded bounds has its decade in the
    window the source enumerates. *)
Lemma decade_in_window (ymin ymax m : Q) (k : Z) :
  0 < ymin → 0 < ymax → m ∈ mantissas →
  ymin / 4 < m * pow10 k → m * pow10 k < ymax * 4 →
  (floor_log10 (ymin / 4) <= k < ceil_log10 (ymax * 4))%Z.
Proof.
  intros Hmin Hmax Hm Hlo Hhi.
  apply mantissas_bounds in Hm as [Hm1 Hm10].
  pose proof (pow10_pos k) as Hk.
  assert (0 < ymin / 4) as Hq by (apply Qlt_shift_div_l; [reflexivity | lra]).
  assert (0 < ymax * 4) as Hp by lra.
  destruct (floor_log10_spec _ Hq) as [Flo _].
  destruct (ceil_log10_spec _ Hp) as [_ Chi].
  split.
  - assert (pow10 (floor_log10 (ymin / 4)) < pow10 (k + 1)) as H.
    { rewrite pow10_succ. eapply Qle_lt_trans; [exact Flo |].
      eapply Qlt_trans; [exact Hlo |]. rewrite (Qmult_comm (pow10 k)).
      apply Qmult_lt_compat_r; assumption. }
    apply pow10_lt_inv in H. lia.
  - apply pow10_lt_inv. eapply Qlt_le_trans; [| exact Chi].
    eapply Qlt_trans; [| exact Hhi].
    rewrite <- (Qmult_1_l (pow10 k)) at 1.
    apply Qmult_lt_compat_r; assumption.
Qed.

(** C5: on a range of at most two decades the minor ticks become exactly
    the products of a mantissa 1.5, 2, ..., 9 and a power of ten with
    exponent from [floor(log10(ymin/4))] up to, not including,
    [ceil(log10(ymax*4))], that lie strictly between [ymin/4] and
    [ymax*4]; the vertical range is [ymin, ymax] again afterwards, whatever
    the library did to it.  On the range [1, 50] the ticks include 1.5 and
    15 and all lie within [0.25, 200]. *)
Theorem set_dense_minor_yticks_ticks :
  (∀ (a : Axes) (ymin ymax : Q),
     ylim a = (ymin, ymax) → 0 < ymin → 0 < ymax → ymax / ymin <= 100 →
     ∃ ticks,
       minor_locator (yaxis (set_dense_minor_yticks view_after_ticks a))
         = FixedLocator ticks
       ∧ (∀ t, t ∈ ticks ↔
            ∃ (m : Q) (k : Z),
              m ∈ mantissas
              ∧ (floor_log10 (ymin / 4) <= k < ceil_log10 (ymax * 4))%Z
              ∧ t = m * pow10 k
              ∧ ymin / 4 < t ∧ t < ymax * 4)
       ∧ ylim (set_dense_minor_yticks view_after_ticks a) = (ymin, ymax))
  ∧ (∀ a : Axes,
       ylim a = (1, 50) →
       ∃ ticks,
         minor_locator (yaxis (set_dense_minor_yticks view_after_ticks a))
           = FixedLocator ticks
         ∧ (∃ t, t ∈ ticks ∧ t == 15 # 10)
         ∧ (∃ t, t ∈ ticks ∧ t == 15)
         ∧ ∀ t, t ∈ ticks → 1 # 4 <= t ∧ t <= 200).
Proof.
  split.
  - intros a ymin ymax Hlim Hmin Hmax Hratio.
    exists (dense_ticks ymin ymax).
    unfold set_dense_minor_yticks. rewrite Hlim.
    destruct (decide (100 < ymax / ymin)) as [Hgt | _]; [exfalso; lra |].
    split; [reflexivity |]. split; [| reflexivity].
    intros t. apply dense_ticks_elem.
  - intros a Hlim. exists (dense_ticks 1 50).
    unfold set_dense_minor_yticks. rewrite Hlim.
    destruct (decide (100 < 50 / 1)) as [Hgt | _]; [exfalso; revert Hgt; vm_compute; congruence |].
    split; [reflexivity |].
    split; [exists ((15 # 10) * pow10 0); split; [vm_compute; set_solver | reflexivity] |].
    split; [exists ((15 # 10) * pow10 1); split; [vm_compute; set_solver | reflexivity] |].
    intros t Ht. apply dense_ticks_elem in Ht as (m & k & _ & _ & _ & Hlo & Hhi).
    split; apply Qlt_le_weak.
    + eapply Qle_lt_trans; [| exact Hlo]. vm_compute. congruence.
    + eapply Qlt_le_trans; [exact Hhi |]. vm_compute. congruence.
Qed.

(** C6: on a range of more than two decades [set_yaxis_log_minor_labels]
    installs the SI formatter for major and minor ticks and changes
    nothing else: the locators, so the minor ticks, and the view limits
    are as before. *)
Theorem set_yaxis_log_minor_labels_wide_range (a : Axes) (ymin ymax : Q) :
  ylim a = (ymin, ymax) → 100 < ymax / ymin →
  let a' := set_yaxis_log_minor_labels view_after_ticks a in
  major_formatter (yaxis a') = LogFormatterSI (2, 1)%Z
  ∧ minor_formatter (yaxis a') = LogFormatterSI (2, 1)%Z
  ∧ (∀ x, format_tick (major_formatter (yaxis a')) x = Some (MyLogFormatter.call x)
          ∧ format_tick (minor_formatter (yaxis a')) x = Some (MyLogFormatter.call x))
  ∧ minor_locator (yaxis a') = minor_locator (yaxis a)
  ∧ major_locator (yaxis a') = major_locator (yaxis a)
  ∧ ylim a' = ylim a
  ∧ xlim a' = xlim a
  ∧ xaxis a' = xaxis a.
Proof.
  intros Hlim Hratio. cbv zeta.
  unfold set_yaxis_log_minor_labels, set_dense_minor_yticks.
  cbn [ylim on_yaxis]. rewrite Hlim.
  destruct (decide (100 < ymax / ymin)) as [_ | Hle]; [| contradiction].
  cbn. repeat split; auto.
Qed.

(** C9: the finite window of decades loses no tick.  For a positive range
    the list the source builds has the same members as the set taken over
    all integer decades: a candidate outside the window is outside the
    open interval between [ymin/4] and [ymax*4]. *)
Theorem dense_ticks_complete (ymin ymax t : Q) :
  0 < ymin → 0 < ymax →
  (t ∈ dense_ticks ymin ymax ↔ dense_tick_spec ymin ymax t).
Proof.
  intros Hmin Hmax. rewrite dense_ticks_elem. unfold dense_tick_spec. split.
  - intros (m & k & Hm & _ & Ht & Hlo & Hhi). exists m, k. repeat split; assumption.
  - intros (m & k & Hm & Ht & Hlo & Hhi). exists m, k.
    split; [exact Hm |]. split; [| repeat split; assumption].
    subst t. eapply decade_in_window; eassumption.
Qed.

End LogAxisFacts.

Section LogAxisExamples.
Import Decade Mpl Tools Samples.
Local Open Scope Q_scope.

(** The range [1, 50] with a library that widens the view to the ticks:
    the range is restored. *)
Lemma dense_ticks_on_1_50 :
  ylim (set_dense_minor_yticks widen (plain_axes (0, 1) (1, 50))) = (1, 50).
Proof.
  destruct (proj1 (set_dense_minor_yticks_ticks widen)
                  (plain_axes (0, 1) (1, 50)) 1 50)
    as (ticks & _ & _ & Hlim).
  - reflexivity.
  - reflexivity.
  - reflexivity.
  - vm_compute. discriminate.
  - exact Hlim.
Defined.

(** The range [1, 1000] keeps its minor locator. *)
Lemma wide_range_on_1_1000 :
  minor_locator (yaxis (set_yaxis_log_minor_labels widen (plain_axes (0, 1) (1, 1000))))
  = OtherLocator 1.
Proof.
  apply (set_yaxis_log_minor_labels_wide_range widen (plain_axes (0, 1) (1, 1000)) 1 1000);
    reflexivity.
Defined.

(** 0.3 is a tick of the range [1, 50], in the window and over all
    decades. *)
Lemma tick_0_3_on_1_50 :
  (3 * pow10 (-1)) ∈ dense_ticks 1 50 ↔ dense_tick_spec 1 50 (3 * pow10 (-1)).
Proof. apply dense_ticks_complete; reflexivity. Defined.

End LogAxisExamples.

(** * Further properties of the helpers *)

(** ** [pause_commandline] and the environment *)

Section PauseEnvironment.
Import Tools.

Lemma pause_commandline_lookup (environ : gmap string string) (msg : string) :
  pause_commandline environ msg
  = match environ !! "SPYDER_ARGS" with Some _ => [] | None => [Input msg] end.
Proof.
  unfold pause_commandline.
  destruct (decide ("SPYDER_ARGS" ∉ dom environ)) as [Hn | Hn].
  - apply not_elem_of_dom in Hn. rewrite Hn. reflexivity.
  - apply dec_stable, elem_of_dom in Hn. destruct Hn as [v ->]. reflexivity.
Qed.

(** Only the presence of the key SPYDER_ARGS matters: any value, the empty
    string included, silences the prompt; removing the key brings it back;
    and no other variable has any influence. *)
Theorem pause_commandline_environment
    (environ : gmap string string) (msg : string) :
  (∀ v, pause_commandline (<["SPYDER_ARGS" := v]> environ) msg = [])
  ∧ pause_commandline (delete "SPYDER_ARGS" environ) msg = [Input msg]
  ∧ (∀ k v, k ≠ "SPYDER_ARGS" →
       pause_commandline (<[k := v]> environ) msg = pause_commandline environ msg
       ∧ pause_commandline (delete k environ) msg = pause_commandline environ msg).
Proof.
  split; [| split].
  - intros v. rewrite pause_commandline_lookup, lookup_insert_eq. reflexivity.
  - rewrite pause_commandline_lookup, lookup_delete_eq. reflexivity.
  - intros k v Hk. rewrite !pause_commandline_lookup.
    rewrite lookup_insert_ne, lookup_delete_ne by exact Hk. split; reflexivity.
Qed.

End PauseEnvironment.

Section PauseEnvironmentExamples.
Import Tools.

(** An unrelated variable next to an empty SPYDER_ARGS. *)
Lemma pause_with_home_variable :
  pause_commandline (<["HOME" := "/root"]> {[ "SPYDER_ARGS" := "" ]}) default_msg
  = pause_commandline {[ "SPYDER_ARGS" := "" ]} default_msg.
Proof.
  apply (pause_commandline_environment {[ "SPYDER_ARGS" := ""%string ]} default_msg).
  discriminate.
Defined.

End PauseEnvironmentExamples.

(** ** More on [set_xaxis_dateformat] *)

Section DateAxisMore.
Import Decade Mpl Tools.
Local Open Scope Q_scope.

Variable days_between : Q * Q → Z.

(** Evaluation of the monadic code on a state given by its fields: the
    record projections are reduced along the way, the decisions and the
    maps over the tick labels are left in place. *)
Ltac run_date :=
  cbv beta iota zeta delta
    [exec set_xaxis_dateformat when plt_xticks_rotation on_gca on_ax get_xlim
     mbind mret plt_bind plt_ret
     on_xaxis on_yaxis with_ylim grid set_major_locator set_minor_locator
     set_major_formatter set_minor_formatter set_minor_direction
     set_grid_major set_grid_minor map_ticklabels set_label
     xlim ylim xaxis yaxis major_locator minor_locator major_formatter
     minor_formatter minor_direction grid_major grid_minor ticklabels label
     ax other_gca fst snd id].

Ltac case_date :=
  repeat match goal with
    | |- context [decide ?P] => destruct (decide P); run_date
    | |- context [bool_decide ?P] => destruct (bool_decide_reflect P); run_date
    end.

Ltac open_axes a :=
  let xl := fresh "xl" in let yl := fresh "yl" in
  destruct a as [xl yl [? ? ? ? ? ? ? ? ?] [? ? ? ? ? ? ? ? ?]].

(** All cases of a call on a state given by its fields: first the rows,
    then the flags. *)
Ltac all_rows :=
  run_date;
  match goal with
  | |- context [inject_Z ?n] => generalize (inject_Z n); intros ?d
  end;
  case_date.

Ltac all_cases s yminor tl xlabel :=
  let a := fresh "a" in let g := fresh "g" in
  let Hx := fresh "Hx" in
  destruct s as [a g]; open_axes a;
  destruct g as [g|]; [open_axes g |];
  all_rows;
  destruct yminor, tl, (truthy xlabel) eqn:Hx; run_date.

(** The major grid is drawn on both axes in black at alpha 0.2 whatever the
    span and the flags, and the minor y-grid exactly on request.  Apart
    from these two grids the y axis is left alone: its locators,
    formatters, tick labels and label are as before. *)
Theorem set_xaxis_dateformat_grids
    (s : Pyplot) (xlabel : option string) (M : Q) (yminor tl : bool) :
  let s' := exec (set_xaxis_dateformat days_between xlabel M yminor tl) s in
  grid_major (xaxis (ax s')) = Some (black (2 # 10))
  ∧ yaxis (ax s') =
      (if yminor then set_grid_minor (black (1 # 10)) else id)
        (set_grid_major (black (2 # 10)) (yaxis (ax s)))
  ∧ minor_formatter (xaxis (ax s')) = minor_formatter (xaxis (ax s)).
Proof.
  cbv zeta. all_cases s yminor tl xlabel; repeat split; reflexivity.
Qed.

(** The minor x-grid has a gap.  It is drawn for spans above [maxticks] up
    to [25*maxticks] and again above [30.5*maxticks] below [90*maxticks];
    in between (the upper part of the monthly row), for the daily row and
    from [90*maxticks] on it is left as it was.  This holds for every
    [maxticks], positive or not. *)
Theorem set_xaxis_dateformat_minor_grid_gap
    (s : Pyplot) (xlabel : option string) (M : Q) (yminor tl : bool) :
  let day_span := inject_Z (days_between (xlim (ax s))) in
  let s' := exec (set_xaxis_dateformat days_between xlabel M yminor tl) s in
  grid_minor (xaxis (ax s')) =
    if bool_decide ((M < day_span ∧ day_span <= 25 * M)
                    ∨ ((61 # 2) * M < day_span ∧ day_span < 90 * M))
    then Some (black (1 # 10))
    else grid_minor (xaxis (ax s)).
Proof.
  cbv zeta. all_cases s yminor tl xlabel; try reflexivity; exfalso;
    match goal with
    | H : ¬ (_ ∨ _) |- _ => first [ lra | apply H; lra ]
    | _ => lra
    end.
Qed.

(** Minor ticks are turned inward in the monthly row only. *)
Theorem set_xaxis_dateformat_minor_direction
    (s : Pyplot) (xlabel : option string) (M : Q) (yminor tl : bool) :
  let day_span := inject_Z (days_between (xlim (ax s))) in
  let s' := exec (set_xaxis_dateformat days_between xlabel M yminor tl) s in
  minor_direction (xaxis (ax s')) =
    if bool_decide (M < day_span ∧ 7 * M < day_span ∧ day_span <= (61 # 2) * M)
    then Some "in"%string
    else minor_direction (xaxis (ax s)).
Proof.
  cbv zeta. all_cases s yminor tl xlabel; try reflexivity; exfalso;
    match goal with
    | H : ¬ (_ ∧ _) |- _ => first [ lra | apply H; lra ]
    | _ => lra
    end.
Qed.

(** With tick labels requested, every tick label of the axes is left
    aligned, but the rotation goes to pyplot's current axes.  When the axes
    is the current one its labels are rotated by -20 degrees; when another
    axes is current, that one's labels are rotated (and nothing else of it
    changes) while the labels of the axes passed in keep their rotation. *)
Theorem set_xaxis_dateformat_tick_labels
    (s : Pyplot) (xlabel : option string) (M : Q) (yminor : bool) :
  let s' := exec (set_xaxis_dateformat days_between xlabel M yminor true) s in
  let labels := ticklabels (xaxis (ax s)) in
  let labels' := ticklabels (xaxis (ax s')) in
  ha <$> labels' = (λ _, "left"%string) <$> labels
  ∧ (other_gca s = None →
       rotation <$> labels' = (λ _, -20) <$> labels ∧ other_gca s' = None)
  ∧ (∀ g, other_gca s = Some g →
       rotation <$> labels' = rotation <$> labels
       ∧ other_gca s' = Some (on_xaxis (map_ticklabels (set_rotation (-20))) g)).
Proof.
  cbv zeta. destruct s as [a g]. open_axes a. destruct g as [g|]; [open_axes g |];
    all_rows; destruct yminor, (truthy xlabel) eqn:Hx; run_date;
    (split; [| split; [intros Hg | intros g0 Hg]]);
    try discriminate Hg; try injection Hg as <-;
    repeat split; rewrite <- ?list_fmap_compose;
    try reflexivity; apply list_fmap_ext; intros i t _; reflexivity.
Qed.

(** The x-label is set by truthiness: a non-empty string becomes the label,
    the empty string (like [None]) leaves everything as it would be
    without a label argument. *)
Theorem set_xaxis_dateformat_xlabel
    (s : Pyplot) (M : Q) (yminor tl : bool) :
  let run xlabel := exec (set_xaxis_dateformat days_between xlabel M yminor tl) s in
  label (xaxis (ax (run (Some ""%string)))) = label (xaxis (ax s))
  ∧ run (Some ""%string) = run None
  ∧ ∀ text, text ≠ ""%string → label (xaxis (ax (run (Some text)))) = text.
Proof.
  cbv zeta. split; [| split].
  - destruct s as [a g]. open_axes a. destruct g as [g|]; [open_axes g |];
      all_rows; destruct yminor, tl; reflexivity.
  - reflexivity.
  - intros text Htext.
    assert (truthy (Some text) = true) as Ht.
    { cbn. apply negb_true_iff, String.eqb_neq. exact Htext. }
    destruct s as [a g]. open_axes a. destruct g as [g|]; [open_axes g |];
      all_rows; rewrite Ht; destruct yminor, tl; reflexivity.
Qed.

Lemma set_xaxis_dateformat_keeps_xlim
    (s : Pyplot) (xlabel : option string) (M : Q) (yminor tl : bool) :
  xlim (ax (exec (set_xaxis_dateformat days_between xlabel M yminor tl) s))
  = xlim (ax s).
Proof. all_cases s yminor tl xlabel; reflexivity. Qed.

End DateAxisMore.

Section DateAxisTwice.
Import Decade Mpl Tools.
Local Open Scope Q_scope.

Ltac run_twice :=
  cbv beta iota zeta delta
    [exec set_xaxis_dateformat when plt_xticks_rotation on_gca on_ax get_xlim
     mbind mret plt_bind plt_ret
     on_xaxis on_yaxis with_ylim grid set_major_locator set_minor_locator
     set_major_formatter set_minor_formatter set_minor_direction
     set_grid_major set_grid_minor map_ticklabels set_label
     xlim ylim xaxis yaxis major_locator minor_locator major_formatter
     minor_formatter minor_direction grid_major grid_minor ticklabels label
     ax other_gca fst snd id].

Ltac case_twice :=
  repeat match goal with
    | |- context [decide ?P] => destruct (decide P); run_twice
    | |- context [bool_decide ?P] => destruct (bool_decide_reflect P); run_twice
    end.

Ltac open_both a :=
  let xl := fresh "xl" in let yl := fresh "yl" in
  destruct a as [xl yl [? ? ? ? ? ? ? ? ?] [? ? ? ? ? ? ? ? ?]].

(** With the span held fixed, a second call changes nothing. *)
Lemma set_xaxis_dateformat_fixed_span_twice
    (n : Z) (s : Pyplot) (xlabel : option string) (M : Q) (yminor tl : bool) :
  exec (set_xaxis_dateformat (λ _, n) xlabel M yminor tl)
       (exec (set_xaxis_dateformat (λ _, n) xlabel M yminor tl) s)
  = exec (set_xaxis_dateformat (λ _, n) xlabel M yminor tl) s.
Proof.
  destruct s as [a g]. open_both a. destruct g as [g|]; [open_both g |];
    run_twice; generalize (inject_Z n); intros d; case_twice;
    try (exfalso; lra);
    destruct yminor, tl, (truthy xlabel) eqn:Hx; run_twice; rewrite ?Hx; run_twice;
    rewrite <- ?list_fmap_compose;
    try reflexivity;
    repeat f_equal; apply list_fmap_ext; intros i [r h] _; reflexivity.
Qed.

Variable days_between : Q * Q → Z.

(** The span is read from the view limits of the state the call starts
    on. *)
Lemma set_xaxis_dateformat_span_of_state
    (s : Pyplot) (xlabel : option string) (M : Q) (yminor tl : bool) :
  exec (set_xaxis_dateformat days_between xlabel M yminor tl) s
  = exec (set_xaxis_dateformat (λ _, days_between (xlim (ax s))) xlabel M yminor tl) s.
Proof. reflexivity. Qed.

(** Calling the helper a second time with the same arguments changes
    nothing more: the view limits, so the span and the row, are the same,
    and every setting is overwritten with its own value. *)
Theorem set_xaxis_dateformat_idempotent
    (s : Pyplot) (xlabel : option string) (M : Q) (yminor tl : bool) :
  let run := exec (set_xaxis_dateformat days_between xlabel M yminor tl) in
  run (run s) = run s.
Proof.
  cbv zeta.
  rewrite (set_xaxis_dateformat_span_of_state
             (exec (set_xaxis_dateformat days_between xlabel M yminor tl) s)).
  rewrite set_xaxis_dateformat_keeps_xlim.
  rewrite (set_xaxis_dateformat_span_of_state s).
  apply set_xaxis_dateformat_fixed_span_twice.
Qed.

End DateAxisTwice.

Section DateAxisMoreExamples.
Import Decade Mpl Tools Samples.
Local Open Scope Q_scope.

(** Two axes, the second one current: formatting the first rotates the
    labels of the second.  A single current axes: its own labels are
    rotated. *)
Lemma rotation_goes_to_current_axes :
  let run := exec (set_xaxis_dateformat floor_days None default_maxticks false true) in
  let two := mkPyplot (plain_axes (0, 50) (0, 1)) (Some (plain_axes (0, 5) (0, 1))) in
  let one := single (0, 50) (0, 1) in
  rotation <$> ticklabels (xaxis (ax (run two))) = [0; 0]
  ∧ (λ g, rotation <$> ticklabels (xaxis g)) <$> other_gca (run two) = Some [-20; -20]
  ∧ rotation <$> ticklabels (xaxis (ax (run one))) = [-20; -20].
Proof.
  cbv zeta.
  destruct (set_xaxis_dateformat_tick_labels floor_days
              (mkPyplot (plain_axes (0, 50) (0, 1)) (Some (plain_axes (0, 5) (0, 1))))
              None default_maxticks false) as (_ & _ & Hother).
  destruct (Hother _ eq_refl) as [Hrot Hgca].
  destruct (set_xaxis_dateformat_tick_labels floor_days (single (0, 50) (0, 1))
              None default_maxticks false) as (_ & Hsame & _).
  destruct (Hsame eq_refl) as [Hrot1 _].
  split; [| split].
  - rewrite Hrot. reflexivity.
  - rewrite Hgca. reflexivity.
  - rewrite Hrot1. reflexivity.
Defined.

(** A non-empty label is installed. *)
Lemma xlabel_date_installed :
  label (xaxis (ax (exec (set_xaxis_dateformat floor_days (Some "Date"%string)
                            default_maxticks false true)
                         (single (0, 50) (0, 1))))) = "Date"%string.
Proof.
  apply (set_xaxis_dateformat_xlabel floor_days (single (0, 50) (0, 1))
           default_maxticks false true).
  discriminate.
Defined.

End DateAxisMoreExamples.

(** ** More on the dense minor ticks *)

Section DenseTicksMore.
Import Decade Mpl Tools.
Local Open Scope Q_scope.

(** The candidates of one decade lie strictly between that power of ten
    and the next. *)
Lemma candidate_between_decades (m : Q) (k : Z) :
  m ∈ mantissas → pow10 k < m * pow10 k ∧ m * pow10 k < pow10 (k + 1).
Proof.
  intros Hm. apply mantissas_bounds in Hm as [Hm1 Hm10].
  pose proof (pow10_pos k) as Hk. rewrite pow10_succ. split.
  - rewrite <- (Qmult_1_l (pow10 k)) at 1. apply Qmult_lt_compat_r; assumption.
  - rewrite (Qmult_comm (pow10 k)). apply Qmult_lt_compat_r; assumption.
Qed.

Lemma decade_row_sorted (k : Z) :
  StronglySorted Qlt ((λ m, m * pow10 k) <$> mantissas).
Proof.
  pose proof (pow10_pos k) as Hk.
  unfold mantissas. cbn [fmap list_fmap].
  repeat (apply StronglySorted_cons; split;
          [repeat (apply Forall_cons; split;
                   [apply Qmult_lt_compat_r; [exact Hk | reflexivity] |]);
           apply Forall_nil; exact I |]).
  constructor.
Qed.

Lemma decade_rows_sorted (n : nat) (m : Z) :
  StronglySorted Qlt
    (k ← seqZ m (Z.of_nat n); (λ c, c * pow10 k) <$> mantissas).
Proof.
  revert m. induction n as [|n IH]; intros m.
  - constructor.
  - rewrite seqZ_cons by lia.
    replace (Z.pred (Z.of_nat (S n))) with (Z.of_nat n) by lia.
    rewrite bind_cons. apply StronglySorted_app_2; [| apply decade_row_sorted | apply IH].
    intros x y Hx Hy.
    apply list_elem_of_fmap in Hx as (c & -> & Hc).
    apply list_elem_of_bind in Hy as (k & Hy & Hk).
    apply list_elem_of_fmap in Hy as (c' & -> & Hc').
    apply elem_of_seqZ in Hk.
    destruct (candidate_between_decades c m Hc) as [_ Hup].
    destruct (candidate_between_decades c' k Hc') as [Hlow _].
    eapply Qlt_trans; [exact Hup |].
    eapply Qle_lt_trans; [| exact Hlow].
    apply pow10_le. lia.
Qed.

Lemma StronglySorted_filter_Qlt (P : Q → Prop) `{∀ t, Decision (P t)} (l : list Q) :
  StronglySorted Qlt l → StronglySorted Qlt (filter P l).
Proof.
  induction l as [|x l IH]; intros Hl.
  - constructor.
  - apply StronglySorted_cons in Hl as [Hx Hl]. rewrite filter_cons.
    destruct (decide (P x)); [| apply IH, Hl].
    apply StronglySorted_cons. split; [| apply IH, Hl].
    apply Forall_forall. intros y Hy.
    apply list_elem_of_filter in Hy as [_ Hy].
    rewrite Forall_forall in Hx. apply Hx, Hy.
Qed.

(** The ticks come out in strictly increasing order, hence without
    repetition, for every range. *)
Theorem dense_ticks_increasing (ymin ymax : Q) :
  StronglySorted Qlt (dense_ticks ymin ymax).
Proof.
  unfold dense_ticks, arange. cbv zeta.
  apply StronglySorted_filter_Qlt.
  destruct (Z_le_gt_dec 0 (ceil_log10 (ymax * 4) - floor_log10 (ymin / 4))) as [Hn | Hn].
  - rewrite <- (Z2Nat.id _ Hn). apply decade_rows_sorted.
  - rewrite seqZ_nil by lia. constructor.
Qed.

(** No minor tick sits on a decade: every tick is positive and none equals
    a power of ten, so none coincides with a major tick of the log axis. *)
Theorem dense_ticks_off_decades (ymin ymax t : Q) :
  t ∈ dense_ticks ymin ymax → 0 < t ∧ ∀ j : Z, ¬ t == pow10 j.
Proof.
  intros Ht. apply dense_ticks_elem in Ht as (m & k & Hm & _ & -> & _ & _).
  destruct (candidate_between_decades m k Hm) as [Hlow Hup]. split.
  - eapply Qlt_trans; [apply (pow10_pos k) | exact Hlow].
  - intros j Hj. rewrite Hj in Hlow, Hup.
    apply pow10_lt_inv in Hlow, Hup. lia.
Qed.

(** Every candidate position inside the visible range is a tick. *)
Theorem dense_ticks_cover_visible (ymin ymax m : Q) (k : Z) :
  0 < ymin → m ∈ mantissas →
  ymin <= m * pow10 k → m * pow10 k <= ymax →
  m * pow10 k ∈ dense_ticks ymin ymax.
Proof.
  intros Hmin Hm Hlo Hhi.
  assert (0 < ymax) as Hmax.
  { destruct (candidate_between_decades m k Hm) as [Hlow _].
    pose proof (pow10_pos k). lra. }
  assert (ymin / 4 < m * pow10 k) as Hlo'
    by (apply Qlt_shift_div_r; [reflexivity | lra]).
  assert (m * pow10 k < ymax * 4) as Hhi' by lra.
  apply dense_ticks_elem. exists m, k.
  split; [exact Hm |]. split; [| repeat split; assumption].
  eapply decade_in_window; eassumption.
Qed.

(** A forward range always gets at least one tick. *)
Theorem dense_ticks_nonempty (ymin ymax : Q) :
  0 < ymin → ymin <= ymax → dense_ticks ymin ymax ≠ [].
Proof.
  intros Hmin Hle.
  assert (0 < ymax) as Hmax by lra.
  assert (ymin == 4 * (ymin / 4)) as Hquarter by field.
  assert (0 < ymin / 4) as Ha by (apply Qlt_shift_div_l; [reflexivity | lra]).
  destruct (floor_log10_spec _ Ha) as [Flo Fhi].
  set (k := floor_log10 (ymin / 4)) in *.
  set (a := ymin / 4) in *.
  rewrite pow10_succ in Fhi.
  pose proof (pow10_pos k) as HP.
  assert (∀ (c : Q) (j : Z), c ∈ mantissas →
            a < c * pow10 j → c * pow10 j < ymax * 4 →
            dense_ticks ymin ymax ≠ []) as Hfound.
  { intros c j Hc H1 H2 Hnil.
    assert (c * pow10 j ∈ dense_ticks ymin ymax) as Hin.
    { apply dense_ticks_elem. exists c, j.
      split; [exact Hc |]. split; [| repeat split; assumption].
      eapply decade_in_window; eassumption. }
    rewrite Hnil in Hin. apply elem_of_nil in Hin. exact Hin. }
  destruct (Qlt_le_dec a (2 * pow10 k)) as [H2 | H2].
  - apply (Hfound 2 k); [unfold mantissas; repeat constructor | exact H2 | lra].
  - destruct (Qlt_le_dec a (9 * pow10 k)) as [H9 | H9].
    + apply (Hfound 9 k); [unfold mantissas; repeat constructor | exact H9 | lra].
    + apply (Hfound (15 # 10) (k + 1)%Z); [unfold mantissas; repeat constructor | |];
        rewrite pow10_succ; lra.
Qed.

(** On a range of at most two decades the source enumerates at most five
    decades, so there are never more than 45 minor ticks. *)
Theorem dense_ticks_at_most_45 (ymin ymax : Q) :
  0 < ymin → 0 < ymax → ymax / ymin <= 100 →
  (length (dense_ticks ymin ymax) <= 45)%nat.
Proof.
  intros Hmin Hmax Hratio.
  assert (ymax <= 100 * ymin) as Hr.
  { apply (Qmult_le_compat_r _ _ ymin) in Hratio; [| lra].
    unfold Qdiv in Hratio. rewrite <- Qmult_assoc, (Qmult_comm (/ ymin)) in Hratio.
    rewrite Qmult_inv_r, Qmult_1_r in Hratio; [exact Hratio | lra]. }
  assert (ymin == 4 * (ymin / 4)) as Hquarter by field.
  assert (0 < ymin / 4) as Ha by (apply Qlt_shift_div_l; [reflexivity | lra]).
  assert (0 < ymax * 4) as Hb by lra.
  destruct (floor_log10_spec _ Ha) as [_ Fhi].
  destruct (ceil_log10_spec _ Hb) as [Clo _].
  set (emin := floor_log10 (ymin / 4)) in *.
  set (emax := ceil_log10 (ymax * 4)) in *.
  assert (emax - emin <= 5)%Z as Hwin.
  { assert (pow10 (emax - 1) < pow10 (emin + 1 + 4)) as H.
    { unfold pow10 at 2. rewrite Qpower_plus by discriminate.
      fold (pow10 (emin + 1)). change (10 ^ 4) with 10000.
      pose proof (pow10_pos (emin + 1)).
      lra. }
    apply pow10_lt_inv in H. lia. }
  unfold dense_ticks, arange. cbv zeta. fold emin emax.
  etransitivity; [apply length_filter |].
  assert (∀ l : list Z,
            length (k ← l; (λ m, m * pow10 k) <$> mantissas) = (9 * length l)%nat) as Hlen.
  { induction l as [|k l IH]; [reflexivity |].
    rewrite bind_cons, length_app, IH, length_fmap. cbn [length mantissas]. lia. }
  rewrite Hlen, length_seqZ. lia.
Qed.

End DenseTicksMore.

Section DenseTicksExamples.
Import Decade Mpl Tools.
Local Open Scope Q_scope.

(** On the range [1, 50]: 15 is a tick, off the decades, and 30 is visible
    and a tick. *)
Lemma tick_15_off_decades :
  0 < (15 # 10) * pow10 1 ∧ ∀ j : Z, ¬ (15 # 10) * pow10 1 == pow10 j.
Proof.
  apply (dense_ticks_off_decades 1 50). vm_compute. repeat constructor.
Defined.

Lemma tick_30_visible : 3 * pow10 1 ∈ dense_ticks 1 50.
Proof.
  apply dense_ticks_cover_visible.
  - reflexivity.
  - unfold mantissas. repeat constructor.
  - vm_compute. discriminate.
  - vm_compute. discriminate.
Defined.

Lemma ticks_of_1_50_nonempty : dense_ticks 1 50 ≠ [].
Proof. apply dense_ticks_nonempty; [reflexivity | vm_compute; discriminate]. Defined.

Lemma ticks_of_1_100_bounded : (length (dense_ticks 1 100) <= 45)%nat.
Proof.
  apply dense_ticks_at_most_45; [reflexivity | reflexivity | vm_compute; discriminate].
Defined.

End DenseTicksExamples.

(** ** More on [set_dense_minor_yticks] and [set_yaxis_log_minor_labels] *)

Section LogAxisMore.
Import Decade Mpl Tools.
Local Open Scope Q_scope.

Variable view_after_ticks : list Q → Q * Q → Q * Q.


(** [set_yaxis_log_minor_labels] installs the SI formatter for major and
    minor ticks on every range, and the two steps do not interfere:
    installing the formatters after the dense ticks gives the same axes. *)
Theorem set_yaxis_log_minor_labels_composition (a : Axes) :
  let formatter := LogFormatterSI (2, 1)%Z in
  let a' := set_yaxis_log_minor_labels view_after_ticks a in
  major_formatter (yaxis a') = formatter
  ∧ minor_formatter (yaxis a') = formatter
  ∧ a' = on_yaxis (set_major_formatter formatter)
           (on_yaxis (set_minor_formatter formatter)
              (set_dense_minor_yticks view_after_ticks a))
  ∧ minor_locator (yaxis a')
    = minor_locator (yaxis (set_dense_minor_yticks view_after_ticks a)).
Proof.
  destruct a as [xl [ymin ymax] xa [? ? ? ? ? ? ? ? ?]]. cbv zeta.
  unfold set_yaxis_log_minor_labels, set_dense_minor_yticks. cbn [ylim on_yaxis].
  destruct (decide (100 < ymax / ymin)); repeat split; reflexivity.
Qed.

(** Both helpers can be called again without further effect: the range is
    the one the first call started from, so the same ticks and the same
    formatter are installed again. *)
Theorem log_axis_helpers_idempotent (a : Axes) :
  set_dense_minor_yticks view_after_ticks (set_dense_minor_yticks view_after_ticks a)
  = set_dense_minor_yticks view_after_ticks a
  ∧ set_yaxis_log_minor_labels view_after_ticks
      (set_yaxis_log_minor_labels view_after_ticks a)
    = set_yaxis_log_minor_labels view_after_ticks a.
Proof.
  destruct a as [xl [ymin ymax] xa [? ? ? ? ? ? ? ? ?]]. split.
  - unfold set_dense_minor_yticks at 2. cbn [ylim].
    destruct (decide (100 < ymax / ymin)) as [Hwide | Hdense];
      unfold set_dense_minor_yticks; cbn [ylim on_yaxis yaxis_set_ticks_minor with_ylim];
      (destruct (decide (100 < ymax / ymin)); [| ]); try contradiction; reflexivity.
  - unfold set_yaxis_log_minor_labels, set_dense_minor_yticks at 2.
    cbn [ylim on_yaxis].
    destruct (decide (100 < ymax / ymin)) as [Hwide | Hdense];
      unfold set_dense_minor_yticks; cbn [ylim on_yaxis yaxis_set_ticks_minor with_ylim];
      (destruct (decide (100 < ymax / ymin)); [| ]); try contradiction; reflexivity.
Qed.

End LogAxisMore.

(** ** More on [MyLogFormatter] *)

Section FormatterMore.
Import Decade PyFormat MyLogFormatter.
Local Open Scope Q_scope.

Lemma call_empty_suppressed (x : Q) :
  call x = EmptyString ↔ suppressed (mantisse x) = true.
Proof.
  unfold call. destruct (suppressed (mantisse x)).
  - tauto.
  - destruct (select_prefix x) as [mul prefix]. split; [| discriminate].
    intros H. exfalso. revert H. apply append_nonempty_l, format_g_nonempty.
Qed.






(** From 1e-3 up to, not including, 1e9 the number in front of the prefix
    lies in [1, 1000); below 1e-3 it is less than 1 and from 1e9 on it is
    at least 1000. *)
Theorem formatter_scaled_range (x : Q) :
  0 < x →
  let v := x / fst (select_prefix x) in
  ((1 # 1000) <= x ∧ x < 1000000000 → 1 <= v ∧ v < 1000)
  ∧ (x < (1 # 1000) → v < 1)
  ∧ (1000000000 <= x → 1000 <= v).
Proof.
  intros Hx. cbv zeta.
  destruct (select_prefix_cases x)
    as [[H1 ->] | [(H1 & H2 & ->) | [(H1 & H2 & ->) | [H1 ->]]]];
    cbn [fst]; repeat split; intros;
    first [ apply Qle_shift_div_l; [reflexivity | lra]
          | apply Qlt_shift_div_r; [reflexivity | lra]
          | exfalso; lra ].
Qed.

(** The rounded mantissa is a multiple of 0.1 between 1 and 10, and 10 is
    possible: a value just below a decade rounds up to it. *)
Theorem mantisse_range (x : Q) :
  0 < x →
  ∃ n : Z, (10 <= n <= 100)%Z ∧ mantisse x = inject_Z n / 10.
Proof.
  intros Hx. unfold mantisse, around1.
  destruct (scaled_in_decade x Hx) as [Hlo Hhi].
  set (v := x * pow10 (- floor_log10 x)) in *.
  exists (round_half_even (v * 10)). split; [| reflexivity].
  destruct (round_half_even_near (v * 10)) as [Rlo Rhi].
  assert (inject_Z 9 < inject_Z (round_half_even (v * 10))) as H9
    by (change (inject_Z 9) with 9; lra).
  assert (inject_Z (round_half_even (v * 10)) < inject_Z 101) as H101
    by (change (inject_Z 101) with 101; lra).
  rewrite <- Zlt_Qlt in H9, H101. lia.
Qed.

(** Labels of the dense minor ticks: a tick at 6, 8 or 9 times a power of
    ten has no label, and the ticks at 1.5, 2, 3, 4, 5 and 7 times a power
    of ten all have one. *)
Theorem dense_tick_label_suppressed (m : Q) (k : Z) :
  m ∈ Tools.mantissas →
  (call (m * pow10 k) = EmptyString ↔ m = 6 ∨ m = 8 ∨ m = 9).
Proof.
  intros Hm. rewrite call_empty_suppressed.
  pose proof (suppressed_intervals (m * pow10 k)) as Hs. cbv zeta in Hs.
  rewrite Hs. clear Hs.
  destruct (candidate_between_decades m k Hm) as [Hlow Hup].
  pose proof (pow10_pos k) as HP.
  assert (floor_log10 (m * pow10 k) = k) as ->.
  { apply floor_log10_unique; [apply Qlt_le_weak; exact Hlow | exact Hup |].
    eapply Qlt_trans; [exact HP | exact Hlow]. }
  assert (m * pow10 k * pow10 (- k) == m) as ->
    by (rewrite pow10_opp; field; lra).
  unfold Tools.mantissas in Hm.
  repeat (apply elem_of_cons in Hm as [-> | Hm];
          [split;
           [ intros [[H1 H2] | [[H1 H2] | [H1 H2]]];
             first [ tauto | exfalso; revert H1 H2; vm_compute; tauto ]
           | intros [H | [H | H]];
             first [ discriminate H
                   | left; split; discriminate
                   | right; left; split; discriminate
                   | right; right; split; discriminate ] ] |]).
  apply elem_of_nil in Hm. contradiction.
Qed.

End FormatterMore.

Section FormatterMoreExamples.
Import Decade PyFormat MyLogFormatter.
Local Open Scope Q_scope.



(** 1500 is printed as a number in [1, 1000), 0.0005 as one below 1 and
    2e9 as one from 1000 on. *)
Lemma scaled_1500 :
  (1 <= 1500 / fst (select_prefix 1500) ∧ 1500 / fst (select_prefix 1500) < 1000)
  ∧ (5 # 10000) / fst (select_prefix (5 # 10000)) < 1
  ∧ 1000 <= 2000000000 / fst (select_prefix 2000000000).
Proof.
  split; [| split].
  - apply (formatter_scaled_range 1500); [reflexivity |].
    split; [vm_compute; discriminate | reflexivity].
  - apply (formatter_scaled_range (5 # 10000)); reflexivity.
  - apply (formatter_scaled_range 2000000000); [reflexivity | vm_compute; discriminate].
Defined.

(** 9.96 rounds up to the mantissa 10. *)
Example mantisse_9_96_is_10 : mantisse (996 # 100) == 10.
Proof. vm_compute. reflexivity. Qed.

Lemma mantisse_of_9_96 :
  ∃ n : Z, (10 <= n <= 100)%Z ∧ mantisse (996 # 100) = inject_Z n / 10.
Proof. apply mantisse_range. reflexivity. Defined.

(** The tick at 150 is labelled, the tick at 60 is not. *)
Lemma labels_of_ticks_150_and_60 :
  call ((15 # 10) * pow10 2) ≠ EmptyString ∧ call (6 * pow10 1) = EmptyString.
Proof.
  split.
  - intros H. apply dense_tick_label_suppressed in H; [| repeat constructor].
    destruct H as [H | [H | H]]; discriminate H.
  - apply dense_tick_label_suppressed; [repeat constructor | left; reflexivity].
Defined.

End FormatterMoreExamples.
